(** * pypolestar: the cache and data-access layer of [PolestarApi]

    A shallow embedding of [src/pypolestar/polestar_api.py] and the
    properties of its field resolver, cache store, query executor and
    vehicle session. *)

From Stdlib Require Import ZArith Lia Ascii String.
From stdpp Require Import base option list strings gmap.

Local Open Scope string_scope.
Local Open Scope Z_scope.

(** ** Python values

    The objects that flow through the client are what [json.loads] produces:
    [None], booleans, integers, floats, strings, lists and dictionaries with
    string keys.  A float is kept as its IEEE-754 binary64 bit pattern (only
    its truth value is ever inspected); a string is a sequence of characters,
    one [ascii] per code point. *)

#[warnings="-register-all"] Inductive value : Type :=
  | VNone
  | VBool (b : bool)
  | VInt (n : Z)
  | VFloat (bits : Z)
  | VStr (s : string)
  | VList (l : list value)
  | VDict (d : gmap string value).

(** The exceptions the modelled code can raise.  [ExternalError] stands for
    whatever the transport or the authentication provider raise themselves. *)
Inductive exn : Type :=
  | AttributeError (attr : string)
  | KeyError (key : value)
  | TypeError
  | IndexError
  | RecursionError
  | PolestarApiException (msg : string)
  | ExternalError (what : string).

(** The outcome of evaluating an expression: a value or a raised exception. *)
Inductive outcome (A : Type) : Type :=
  | Ok (a : A)
  | Raise (e : exn).
Arguments Ok {A} a.
Arguments Raise {A} e.

(** [bool(v)]: Python's truth value testing. *)
Definition float_is_zero (bits : Z) : bool :=
  Z.land bits (Z.ones 63) =? 0.

Definition truthy (v : value) : bool :=
  match v with
  | VNone => false
  | VBool b => b
  | VInt n => negb (n =? 0)
  | VFloat bits => negb (float_is_zero bits)
  | VStr s => negb (String.eqb s "")
  | VList l => match l with [] => false | _ :: _ => true end
  | VDict d => negb (bool_decide (d = ∅))
  end.


(** Sequencing of evaluations that may raise. *)
Definition obind {A B : Type} (k : A -> outcome B) (m : outcome A) : outcome B :=
  match m with
  | Ok a => k a
  | Raise e => Raise e
  end.

#[global] Instance outcome_bind : MBind outcome := @obind.
#[global] Instance outcome_ret : MRet outcome := @Ok.

(** ** Python primitives used by the client *)

(** [x is None] *)
Definition is_None (v : value) : bool :=
  match v with VNone => true | _ => false end.

(** [d.get(key)]: present on dictionaries only. *)
Definition dict_get (v : value) (key : string) : outcome value :=
  match v with
  | VDict d => Ok (default VNone (d !! key))
  | _ => Raise (AttributeError "get")
  end.

(** [v[key]] with a string key. *)
Definition getitem_str (v : value) (key : string) : outcome value :=
  match v with
  | VDict d =>
      match d !! key with
      | Some x => Ok x
      | None => Raise (KeyError (VStr key))
      end
  | _ => Raise TypeError
  end.

(** [v[0]] *)
Definition getitem_0 (v : value) : outcome value :=
  match v with
  | VList l =>
      match l with
      | x :: _ => Ok x
      | [] => Raise IndexError
      end
  | VStr s =>
      match s with
      | String c _ => Ok (VStr (String c ""))
      | EmptyString => Raise IndexError
      end
  | VDict _ => Raise (KeyError (VInt 0))
  | _ => Raise TypeError
  end.

(** [len(v)] *)
Definition len (v : value) : outcome Z :=
  match v with
  | VList l => Ok (Z.of_nat (length l))
  | VStr s => Ok (Z.of_nat (String.length s))
  | VDict d => Ok (Z.of_nat (size d))
  | _ => Raise TypeError
  end.

Fixpoint string_take (n : nat) (s : string) : string :=
  match n, s with
  | S n', String c r => String c (string_take n' r)
  | _, _ => ""
  end.

Fixpoint string_drop (n : nat) (s : string) : string :=
  match n, s with
  | S n', String _ r => string_drop n' r
  | _, _ => s
  end.

(** [v[:n]].  Slicing a dictionary fails (with a [TypeError] before
    Python 3.12). *)
Definition slice_to (n : nat) (v : value) : outcome value :=
  match v with
  | VStr s => Ok (VStr (string_take n s))
  | VList l => Ok (VList (take n l))
  | _ => Raise TypeError
  end.

(** [v[-n:]] *)
Definition slice_last (n : nat) (v : value) : outcome value :=
  match v with
  | VStr s => Ok (VStr (string_drop (String.length s - n) s))
  | VList l => Ok (VList (drop (length l - n) l))
  | _ => Raise TypeError
  end.

(** [prefix + v] for a string literal [prefix]. *)
Definition str_add (prefix : string) (v : value) : outcome string :=
  match v with
  | VStr s => Ok (prefix +:+ s)
  | _ => Raise TypeError
  end.

(** [v == s] for a string literal [s]. *)
Definition eq_str (v : value) (s : string) : bool :=
  match v with
  | VStr s' => String.eqb s' s
  | _ => false
  end.

(** ['/' in s] *)
Fixpoint contains_slash (s : string) : bool :=
  match s with
  | EmptyString => false
  | String c r => Ascii.eqb c "/"%char || contains_slash r
  end.

(** [s.split('/')] *)
Fixpoint split_slash (s : string) : list string :=
  match s with
  | EmptyString => [""]
  | String c r =>
      if Ascii.eqb c "/"%char then "" :: split_slash r
      else match split_slash r with
           | p :: ps => String c p :: ps
           | [] => [String c ""]
           end
  end.

(** ** Field resolver: [PolestarApi._get_field_name_value] *)

(** The loop [for key in field_name] over the split path. *)
Fixpoint walk (keys : list string) (data : value) : outcome value :=
  match keys with
  | [] => Ok data
  | key :: rest =>
      got ← dict_get data key;
      if truthy got then
        data' ← getitem_str data key;
        walk rest data'
      else Ok VNone
  end.

Definition _get_field_name_value (field_name : option string) (data : value)
  : outcome value :=
  match field_name with
  | None => Ok VNone
  | Some field_name =>
      if is_None data then Ok VNone
      else
        (* after the split, field_name is a list (inl) or still a str (inr) *)
        let field_name : list string + string :=
          if contains_slash field_name then inl (split_slash field_name)
          else inr field_name in
        if truthy data then
          match field_name with
          | inl keys => walk keys data
          | inr key => getitem_str data key
          end
        else Ok VNone
  end.

(** ** The session object and its collaborators *)

(** A cache entry [{'data': ..., 'timestamp': ...}]; instants are counted in
    microseconds, the resolution of [datetime]. *)
Record CacheEntry : Type := mkEntry {
  data : value;
  timestamp : Z
}.

(** The query parameters handed to the transport. *)
Record Params : Type := mkParams {
  query : string;
  operationName : string;
  variables : string
}.

(** What lies outside the class: the HTTP transport, the authentication
    provider, the clock, and the constant [CACHE_TIME] of [const.py]
    (in seconds). *)
Class Environment : Type := {
  World : Type;
  Session : Type;
  Auth : Type;
  Headers : Type;
  CACHE_TIME : Z;
  (** [aiohttp.ClientSession()] *)
  ClientSession : Session;
  (** [PolestarAuth(session, username, password)] *)
  PolestarAuth : Session -> string -> string -> Auth;
  (** [await auth.get_token()] *)
  auth_get_token : Auth -> World -> outcome unit * World;
  (** [await auth.headers()] *)
  auth_headers : Auth -> World -> outcome Headers * World;
  (** [await (await session.get(url, params=..., headers=...)).json()] *)
  session_get_json :
    Session -> string -> Params -> Headers -> World -> outcome value * World;
  (** [datetime.now()] *)
  now : World -> Z
}.

Inductive loglevel : Type := DEBUG | WARNING | ERROR.

(** The calls that leave the object, in the order they are made. *)
Inductive event : Type :=
  | EvGetToken
  | EvHeaders
  | EvGet (params : Params)
  | EvLog (level : loglevel).

Section Client.
Context `{Env : Environment}.

(** The instance attributes of a [PolestarApi] object.  An attribute that
    has not been assigned yet is [None]; reading it raises
    [AttributeError]. *)
Record PolestarApi : Type := mkApi {
  username : string;
  password : string;
  _session : Session;
  auth : Auth;
  cache_data : option (gmap string CacheEntry);
  vin : option value;
  id : option value;
  name : option value;
  updating : option value
}.

(** The program state: the object, the outside world and the trace of
    calls made so far. *)
Record State : Type := mkState {
  self : PolestarApi;
  world : World;
  trace : list event
}.

(** A coroutine of the class: it runs on a state and leaves a state behind
    whether it returns or raises. *)
Definition M (A : Type) : Type := State -> outcome A * State.

Definition ret {A : Type} (a : A) : M A := fun st => (Ok a, st).

Definition raise {A : Type} (e : exn) : M A := fun st => (Raise e, st).

Definition bind {A B : Type} (k : A -> M B) (m : M A) : M B :=
  fun st =>
    match m st with
    | (Ok a, st') => k a st'
    | (Raise e, st') => (Raise e, st')
    end.

#[global] Instance M_bind : MBind M := @bind.
#[global] Instance M_ret : MRet M := @ret.

Definition lift {A : Type} (o : outcome A) : M A := fun st => (o, st).

Definition get_self : M PolestarApi := fun st => (Ok (self st), st).

Definition put_self (s : PolestarApi) : M unit :=
  fun st => (Ok tt, mkState s (world st) (trace st)).

Definition emit (e : event) : M unit :=
  fun st => (Ok tt, mkState (self st) (world st) (trace st ++ [e])).

(** A call of a collaborator: it is recorded and acts on the world. *)
Definition call {A : Type} (e : event) (f : World -> outcome A * World) : M A :=
  fun st =>
    let (r, w) := f (world st) in
    (r, mkState (self st) w (trace st ++ [e])).

Definition datetime_now : M Z := fun st => (Ok (now (world st)), st).

(** [self.<attr>] for an instance attribute. *)
Definition getattr {A : Type} (attr : string) (proj : PolestarApi -> option A)
  : M A :=
  fun st =>
    match proj (self st) with
    | Some a => (Ok a, st)
    | None => (Raise (AttributeError attr), st)
    end.

End Client.

Arguments PolestarApi {Env}.
Arguments State {Env}.


(** ** The methods of [PolestarApi] *)

Section Methods.
Context `{Env : Environment}.

Definition set_cache_data (c : gmap string CacheEntry) (s : PolestarApi)
  : PolestarApi :=
  mkApi (username s) (password s) (_session s) (auth s)
        (Some c) (vin s) (id s) (name s) (updating s).

Definition set_vin (v : value) (s : PolestarApi) : PolestarApi :=
  mkApi (username s) (password s) (_session s) (auth s)
        (cache_data s) (Some v) (id s) (name s) (updating s).

Definition set_id (v : value) (s : PolestarApi) : PolestarApi :=
  mkApi (username s) (password s) (_session s) (auth s)
        (cache_data s) (vin s) (Some v) (name s) (updating s).

Definition set_name (v : value) (s : PolestarApi) : PolestarApi :=
  mkApi (username s) (password s) (_session s) (auth s)
        (cache_data s) (vin s) (id s) (Some v) (updating s).

Definition set_updating (v : value) (s : PolestarApi) : PolestarApi :=
  mkApi (username s) (password s) (_session s) (auth s)
        (cache_data s) (vin s) (id s) (name s) (Some v).

(** [self.<attr> = v] *)
Definition setattr (upd : PolestarApi -> PolestarApi) : M unit :=
  s ← get_self; put_self (upd s).

(** [__init__]: the constructor assigns [username], [password], [_session]
    and [auth], and nothing else. *)
Definition __init__ (session : option Session) (username password : string)
  : PolestarApi :=
  let _session := default ClientSession session in
  mkApi username password _session (PolestarAuth _session username password)
        None None None None None.

(** [timedelta(seconds=n)], in microseconds. *)
Definition timedelta_seconds (n : Z) : Z := n * 1000000.

(** [get_latest_data] *)
Definition get_latest_data (s : PolestarApi) (query field_name : option string)
  : outcome value :=
  match cache_data s with
  | None => Raise (AttributeError "cache_data")
  | Some cache =>
      if negb (bool_decide (cache = ∅)) then
        (* self.cache_data[query]; an entry is a two-key dict, hence true *)
        match query ≫= (cache !!.) with
        | None => Raise (KeyError (from_option VStr VNone query))
        | Some entry =>
            if is_None (data entry) then Ok (VBool false)
            else _get_field_name_value field_name (data entry)
        end
      else Ok VNone
  end.

(** [get_cache_data]; [t] is what [datetime.now()] reads at the call. *)
Definition get_cache_data (s : PolestarApi) (t : Z)
    (query field_name : option string) (skip_cache : bool) : outcome value :=
  match query with
  | None => Ok VNone
  | Some query =>
      match cache_data s with
      | None => Raise (AttributeError "cache_data")
      | Some cache =>
          if negb (bool_decide (cache = ∅)) then
            (* self.cache_data.get(query); an entry is a two-key dict *)
            match cache !! query with
            | Some entry =>
                if negb skip_cache then
                  if timestamp entry + timedelta_seconds CACHE_TIME >? t then
                    if is_None (data entry) then Ok VNone
                    else _get_field_name_value field_name (data entry)
                  else Ok VNone
                else
                  if is_None (data entry) then Ok VNone
                  else _get_field_name_value field_name (data entry)
            | None => Ok VNone
            end
          else Ok VNone
      end
  end.

(** The statement [self.cache_data[q] = {'data': d, 'timestamp':
    datetime.now()}], once [d] has been evaluated. *)
Definition cache_put (q : string) (d : value) : M unit :=
  t ← datetime_now;
  cache ← getattr "cache_data" cache_data;
  setattr (set_cache_data (<[q := mkEntry d t]> cache)).

Definition API_URL : string :=
  "https://pc-api.polestar.com/eu-north-1/my-star/".

(** [self.get_token]: the instance holds no such attribute and the class
    defines no such method (the token is minted by [self.auth]). *)
Definition self_get_token : M unit := raise (AttributeError "get_token").

(** [get_graph_ql]; [depth] bounds the nesting of the recursive call, as
    the interpreter's recursion limit does. *)
Fixpoint get_graph_ql (depth : nat) (params : Params) : M value :=
  match depth with
  | O => raise RecursionError
  | S depth =>
      s ← get_self;
      headers ← call EvHeaders (auth_headers (auth s));
      resultData ←
        call (EvGet params)
             (session_get_json (_session s) API_URL params headers);
      errors ← lift (dict_get resultData "errors");
      resultData ←
        (if truthy errors then
           errors ← lift (getitem_str resultData "errors");
           first ← lift (getitem_0 errors);
           message ← lift (getitem_str first "message");
           if eq_str message "User not authenticated" then
             self_get_token;;
             get_graph_ql depth params
           else
             emit (EvLog WARNING);;
             ret resultData
         else ret resultData);
      emit (EvLog DEBUG);;
      ret resultData
  end.

Definition dquote : string := String (ascii_of_nat 34) "".

(** The [variables] parameter: a JSON object with the one key [vin],
    concatenated around [self.vin]. *)
Definition vin_variables : M string :=
  vin ← getattr "vin" vin;
  head ← lift (str_add ("{" +:+ dquote +:+ "vin" +:+ dquote +:+ ":" +:+ dquote) vin);
  ret (head +:+ dquote +:+ "}").

Definition get_odo_data (depth : nat) : M value :=
  variables ← vin_variables;
  get_graph_ql depth
    (mkParams
       "query GetOdometerData($vin: String!) { getOdometerData(vin: $vin) { averageSpeedKmPerHour eventUpdatedTimestamp { iso unix __typename } odometerMeters tripMeterAutomaticKm tripMeterManualKm __typename }}"
       "GetOdometerData"
       variables).

Definition get_battery_data (depth : nat) : M value :=
  variables ← vin_variables;
  get_graph_ql depth
    (mkParams
       "query GetBatteryData($vin: String!) {  getBatteryData(vin: $vin) {    averageEnergyConsumptionKwhPer100Km    batteryChargeLevelPercentage    chargerConnectionStatus    chargingCurrentAmps    chargingPowerWatts    chargingStatus    estimatedChargingTimeMinutesToTargetDistance    estimatedChargingTimeToFullMinutes    estimatedDistanceToEmptyKm    estimatedDistanceToEmptyMiles    eventUpdatedTimestamp {      iso      unix      __typename    }    __typename  }}"
       "GetBatteryData"
       variables).

Definition get_vehicle_data (depth : nat) : M value :=
  get_graph_ql depth
    (mkParams
       "query getCars {  getConsumerCarsV2 {    vin    internalVehicleIdentifier    modelYear    content {      model {        code        name        __typename      }      images {        studio {          url          angles          __typename        }        __typename      }      __typename    }    hasPerformancePackage    registrationNo    deliveryDate    currentPlannedDeliveryDate    __typename  }}"
       "getCars"
       "{}").

(** [result['data'][key]] *)
Definition result_data (result : value) (key : string) : outcome value :=
  d ← getitem_str result "data";
  getitem_str d key.

Definition getOdometerData (depth : nat) : M unit :=
  result ← get_odo_data depth;
  d ← lift (result_data result "getOdometerData");
  cache_put "getOdometerData" d.

Definition getBatteryData (depth : nat) : M unit :=
  result ← get_battery_data depth;
  d ← lift (result_data result "getBatteryData");
  cache_put "getBatteryData" d.

(** [x is True] *)
Definition is_True (v : value) : bool :=
  match v with VBool true => true | _ => false end.

Definition get_ev_data (depth : nat) : M unit :=
  flag ← getattr "updating" updating;
  if is_True flag then ret tt
  else
    setattr (set_updating (VBool true));;
    getOdometerData depth;;
    getBatteryData depth;;
    setattr (set_updating (VBool false)).

(** The body of the [if] that guards [init]: log, then raise. *)
Definition no_cars_found : M unit :=
  emit (EvLog ERROR);;
  raise (PolestarApiException "No cars found in account").

(** [init] *)
Definition init (depth : nat) : M unit :=
  s ← get_self;
  call EvGetToken (auth_get_token (auth s));;
  result ← get_vehicle_data depth;
  cars ← lift (result_data result "getConsumerCarsV2");
  (if is_None cars then no_cars_found
   else
     n ← lift (len cars);
     if n =? 0 then no_cars_found else ret tt);;
  car ← lift (getitem_0 cars);
  cache_put "getConsumerCarsV2" car;;
  v ← lift (getitem_str car "vin");
  setattr (set_vin v);;
  v ← getattr "vin" vin;
  short ← lift (slice_to 8 v);
  setattr (set_id short);;
  v ← getattr "vin" vin;
  tail ← lift (slice_last 4 v);
  display ← lift (str_add "Polestar " tail);
  setattr (set_name (VStr display)).

End Methods.

(** ** A scripted environment

    A concrete world to run the client in: the transport answers each
    request with the next scripted response, the authentication provider
    always succeeds, and the clock stands still. *)

Record Script : Type := mkScript {
  clock : Z;
  inbox : list (outcome value)
}.

Definition scripted_get (w : Script) : outcome value * Script :=
  match inbox w with
  | r :: rest => (r, mkScript (clock w) rest)
  | [] => (Raise (ExternalError "no response"), w)
  end.

Definition scripted : Environment := {|
  World := Script;
  Session := unit;
  Auth := unit;
  Headers := unit;
  CACHE_TIME := 600;
  ClientSession := tt;
  PolestarAuth := fun _ _ _ => tt;
  auth_get_token := fun _ w => (Ok tt, w);
  auth_headers := fun _ w => (Ok tt, w);
  session_get_json := fun _ _ _ _ w => scripted_get w;
  now := clock
|}.

(** An object as the constructor leaves it, and one whose [cache_data] and
    [updating] attributes have been assigned from outside. *)
Definition fresh_api : @PolestarApi scripted :=
  @__init__ scripted None "user" "secret".

Definition api_with (cache : gmap string CacheEntry) (v : option value)
    (flag : option value) : @PolestarApi scripted :=
  @mkApi scripted "user" "secret" tt tt (Some cache) v None None flag.

Definition start (s : @PolestarApi scripted) (t : Z)
    (responses : list (outcome value)) : @State scripted :=
  @mkState scripted s (mkScript t responses) [].

Definition auth_failure : value :=
  VDict {[ "errors" :=
             VList [VDict {[ "message" := VStr "User not authenticated" ]}] ]}.

Definition car : value := VDict {[ "vin" := VStr "YSMYKEAE7RB000001" ]}.

Definition cars_response (cars : value) : value :=
  VDict {[ "data" := VDict {[ "getConsumerCarsV2" := cars ]} ]}.

Definition odometer_response : value :=
  VDict {[ "data" :=
             VDict {[ "getOdometerData" :=
                        VDict {[ "odometerMeters" := VInt 1234 ]} ]} ]}.

Definition some_params : Params := mkParams "query getCars" "getCars" "{}".

Definition battery : value :=
  VDict {[ "batteryChargeLevelPercentage" := VInt 80 ]}.



(** A cache holding the "not found" marker for the battery query. *)
Definition null_battery_api : @PolestarApi scripted :=
  api_with {[ "getBatteryData" := mkEntry VNone 0 ]} None None.

(** The state [init] leaves when the caller has assigned an empty
    [cache_data] beforehand and the account holds one car. *)
Definition initialized : @State scripted :=
  (@init scripted 5
     (start (api_with ∅ None None) 0 [Ok (cars_response (VList [car]))])).2.

(** The state a refresh leaves when the odometer request is answered and
    the battery request fails in the transport. *)
Definition interrupted : @State scripted :=
  (@get_ev_data scripted 5
     (start (api_with ∅ (Some (VStr "YSMYKEAE7RB000001")) (Some (VBool false)))
            0 [Ok odometer_response])).2.

(** ** Reference notions for the resolver

    Plain successive indexing [data[k1][k2]...[kn]], and ['/'.join(parts)],
    against which the loop of the resolver and the split of the path are
    compared. *)
Fixpoint index_path (keys : list string) (data : value) : outcome value :=
  match keys with
  | [] => Ok data
  | key :: rest =>
      data' ← getitem_str data key;
      index_path rest data'
  end.


Fixpoint join_slash (parts : list string) : string :=
  match parts with
  | [] => ""
  | [p] => p
  | p :: rest => p +:+ "/" +:+ join_slash rest
  end.

(** More scripted data: a response that carries an error other than the
    authentication failure, one whose error has no message, the battery
    response, and a car document without [vin]. *)
Definition other_failure : gmap string value :=
  {[ "errors" := VList [VDict {[ "message" := VStr "Internal error" ]}] ]}.

Definition malformed_failure : gmap string value :=
  {[ "errors" := VList [VDict {[ "code" := VInt 500 ]}] ]}.

Definition odometer : value := VDict {[ "odometerMeters" := VInt 1234 ]}.

Definition odometer_fields : gmap string value :=
  {[ "data" := VDict {[ "getOdometerData" := odometer ]} ]}.


Definition anonymous_car : value := VDict {[ "modelYear" := VStr "2024" ]}.

Definition the_vin : string := "YSMYKEAE7RB000001".

(** A car document whose [hasPerformancePackage] is the boolean [False],
    a cache that holds it, and a cache that holds the "not found" marker
    under the same query. *)
Definition plain_car : value :=
  VDict {[ "vin" := VStr the_vin; "hasPerformancePackage" := VBool false ]}.

Definition plain_car_api : @PolestarApi scripted :=
  api_with {[ "getConsumerCarsV2" := mkEntry plain_car 0 ]} None None.

Definition null_car_api : @PolestarApi scripted :=
  api_with {[ "getConsumerCarsV2" := mkEntry VNone 0 ]} None None.

(** * Properties *)

Section Properties.
Context `{Env : Environment}.

(** ** Frame lemmas: which coroutines leave which part of the object alone *)

(** [preserves f m]: running [m] does not change the view [f] of the
    object, whether [m] returns or raises. *)
Definition preserves {X A : Type} (f : PolestarApi -> X) (m : M A) : Prop :=
  forall st, f (self (m st).2) = f (self st).

Lemma preserves_ret {X A} (f : PolestarApi -> X) (a : A) : preserves f (ret a).
Proof. intros st; reflexivity. Qed.

Lemma preserves_mret {X A} (f : PolestarApi -> X) (a : A) :
  preserves f (mret a : M A).
Proof. intros st; reflexivity. Qed.

Lemma preserves_raise {X A} (f : PolestarApi -> X) e :
  preserves f (raise e : M A).
Proof. intros st; reflexivity. Qed.

Lemma preserves_lift {X A} (f : PolestarApi -> X) (o : outcome A) :
  preserves f (lift o).
Proof. intros st; reflexivity. Qed.

Lemma preserves_get_self {X} (f : PolestarApi -> X) : preserves f get_self.
Proof. intros st; reflexivity. Qed.

Lemma preserves_emit {X} (f : PolestarApi -> X) e : preserves f (emit e).
Proof. intros st; reflexivity. Qed.

Lemma preserves_datetime_now {X} (f : PolestarApi -> X) :
  preserves f datetime_now.
Proof. intros st; reflexivity. Qed.

Lemma preserves_call {X A} (f : PolestarApi -> X) e
    (c : World -> outcome A * World) :
  preserves f (call e c).
Proof. intros st; unfold call; destruct (c (world st)); reflexivity. Qed.

Lemma preserves_getattr {X A} (f : PolestarApi -> X) attr
    (proj : PolestarApi -> option A) :
  preserves f (getattr attr proj).
Proof. intros st; unfold getattr; destruct (proj (self st)); reflexivity. Qed.

Lemma preserves_bind {X A B} (f : PolestarApi -> X) (m : M A) (k : A -> M B) :
  preserves f m -> (forall a, preserves f (k a)) -> preserves f (m ≫= k).
Proof.
  intros Hm Hk st. unfold mbind, M_bind, bind.
  specialize (Hm st). destruct (m st) as [[a | e] st1]; simpl in *.
  - rewrite Hk. exact Hm.
  - exact Hm.
Qed.

Lemma preserves_setattr {X} (f : PolestarApi -> X) upd :
  (forall s, f (upd s) = f s) -> preserves f (setattr upd).
Proof. intros H st; simpl; apply H. Qed.

Lemma preserves_if {X A} (f : PolestarApi -> X) (b : bool) (m1 m2 : M A) :
  preserves f m1 -> preserves f m2 -> preserves f (if b then m1 else m2).
Proof. destruct b; auto. Qed.

Create HintDb frame.
#[local] Hint Resolve preserves_ret preserves_mret preserves_raise
  preserves_lift preserves_get_self preserves_emit preserves_datetime_now
  preserves_call preserves_getattr preserves_if : frame.

Ltac frame :=
  repeat first
    [ apply preserves_setattr; intros ?
    | apply preserves_bind; [ | intros ? ]
    | apply preserves_if
    | solve [ auto with frame ] ].

(** The query executor never assigns an attribute. *)
Lemma get_graph_ql_frame {X} (f : PolestarApi -> X) depth params :
  preserves f (get_graph_ql depth params).
Proof.
  revert params; induction depth as [ | depth IH ]; intros params; simpl.
  - apply preserves_raise.
  - frame. unfold self_get_token. frame.
Qed.

Lemma vin_variables_frame {X} (f : PolestarApi -> X) : preserves f vin_variables.
Proof. unfold vin_variables. frame. Qed.

Lemma get_vehicle_data_frame {X} (f : PolestarApi -> X) depth :
  preserves f (get_vehicle_data depth).
Proof. apply get_graph_ql_frame. Qed.

#[local] Hint Resolve get_graph_ql_frame vin_variables_frame : frame.

Lemma cache_put_frame {X} (f : PolestarApi -> X) q d :
  (forall c s, f (set_cache_data c s) = f s) -> preserves f (cache_put q d).
Proof.
  intros H. unfold cache_put. frame.
Qed.

(** The two refresh operations write the cache and nothing else. *)
Lemma getOdometerData_frame {X} (f : PolestarApi -> X) depth :
  (forall c s, f (set_cache_data c s) = f s) ->
  preserves f (getOdometerData depth).
Proof.
  intros H. unfold getOdometerData, get_odo_data. frame.
  all: try apply cache_put_frame, H.
Qed.

Lemma getBatteryData_frame {X} (f : PolestarApi -> X) depth :
  (forall c s, f (set_cache_data c s) = f s) ->
  preserves f (getBatteryData depth).
Proof.
  intros H. unfold getBatteryData, get_battery_data. frame.
  all: try apply cache_put_frame, H.
Qed.

(** ** The in-flight flag of [get_ev_data] *)

Lemma get_ev_data_guard (depth : nat) (st : State) :
  updating (self st) = Some (VBool true) ->
  get_ev_data depth st = (Ok tt, st).
Proof.
  intros Hflag.
  unfold get_ev_data, mbind, M_bind, bind, getattr.
  rewrite Hflag. reflexivity.
Qed.

(** C8: in every session state whose [updating] flag is already [True], a
    call of [get_ev_data] is a no-op: it returns at once and leaves the whole
    state as it was, so no query is issued (the world and the trace of calls
    are unchanged) and no cache entry or other attribute is modified. *)
Theorem get_ev_data_in_flight_noop (depth : nat) (st : State) :
  updating (self st) = Some (VBool true) ->
  get_ev_data depth st = (Ok tt, st).
Proof. apply get_ev_data_guard. Qed.

(** C10: [get_ev_data] does not restore the in-flight flag on error.  When the
    flag check passes (the flag is there and is not [True]) and the call
    raises, which only the odometer or the battery refresh can make it do,
    [updating] is [True] afterwards and every later [get_ev_data] on that
    state returns at once without fetching; the flag is [False] afterwards
    only when the call returned. *)
Theorem get_ev_data_flag_stays_set (depth : nat) (st st' : State)
    (flag : value) (r : outcome unit) :
  updating (self st) = Some flag ->
  is_True flag = false ->
  get_ev_data depth st = (r, st') ->
  match r with
  | Raise _ =>
      updating (self st') = Some (VBool true) /\
      forall depth', get_ev_data depth' st' = (Ok tt, st')
  | Ok _ => updating (self st') = Some (VBool false)
  end.
Proof.
  intros Hflag Hnot Hrun.
  unfold get_ev_data in Hrun.
  unfold mbind, M_bind, bind in Hrun.
  unfold getattr in Hrun at 1. rewrite Hflag, Hnot in Hrun. simpl in Hrun.
  set (st1 := mkState (set_updating (VBool true) (self st)) (world st) (trace st)) in Hrun.
  assert (H1 : updating (self st1) = Some (VBool true)) by reflexivity.
  pose proof (getOdometerData_frame updating depth (fun _ _ => eq_refl) st1) as Hodo.
  destruct (getOdometerData depth st1) as [[[] | e1] st2]; simpl in Hodo.
  - pose proof (getBatteryData_frame updating depth (fun _ _ => eq_refl) st2) as Hbat.
    destruct (getBatteryData depth st2) as [[[] | e2] st3]; simpl in Hbat.
    + inversion Hrun; subst. reflexivity.
    + inversion Hrun; subst.
      assert (Hset : updating (self st') = Some (VBool true)) by congruence.
      split; [exact Hset | intros; apply get_ev_data_guard, Hset].
  - inversion Hrun; subst.
    assert (Hset : updating (self st') = Some (VBool true)) by congruence.
    split; [exact Hset | intros; apply get_ev_data_guard, Hset].
Qed.

(** ** Initialization *)

(** C7: when authentication and the vehicle query return and the fetched
    vehicle list [result['data']['getConsumerCarsV2']] is [None] or empty,
    [init] raises [PolestarApiException] and leaves the object exactly as it
    was: no cache entry is written and [vin], [id] and [name] are not
    assigned. *)
Theorem init_no_vehicles (depth : nat) (st st2 : State) (w1 : World)
    (result cars : value) :
  auth_get_token (auth (self st)) (world st) = (Ok tt, w1) ->
  get_vehicle_data depth (mkState (self st) w1 (trace st ++ [EvGetToken]))
    = (Ok result, st2) ->
  result_data result "getConsumerCarsV2" = Ok cars ->
  cars = VNone \/ cars = VList [] ->
  init depth st
    = (Raise (PolestarApiException "No cars found in account"),
       mkState (self st) (world st2) (trace st2 ++ [EvLog ERROR])).
Proof.
  intros Htoken Hfetch Hcars Hnone.
  pose proof (get_vehicle_data_frame (fun s => s) depth
                (mkState (self st) w1 (trace st ++ [EvGetToken]))) as Hself.
  rewrite Hfetch in Hself.
  simpl in Hself.
  unfold init, mbind, M_bind, bind, get_self, call, lift, no_cars_found.
  rewrite Htoken, Hfetch, Hcars.
  destruct Hnone as [-> | ->]; simpl; rewrite Hself; reflexivity.
Qed.

(** ** Cache reads *)

Lemma lookup_nonempty (cache : gmap string CacheEntry) q entry :
  cache !! q = Some entry -> bool_decide (cache = ∅) = false.
Proof.
  intros Hq. apply bool_decide_eq_false. intros ->.
  rewrite lookup_empty in Hq. discriminate.
Qed.

(** What [get_latest_data] does once the entry is found. *)
Lemma get_latest_data_entry (s : PolestarApi) cache q entry f :
  cache_data s = Some cache ->
  cache !! q = Some entry ->
  get_latest_data s (Some q) f
    = if is_None (data entry) then Ok (VBool false)
      else _get_field_name_value f (data entry).
Proof.
  intros Hcache Hq. unfold get_latest_data.
  rewrite Hcache, (lookup_nonempty _ _ _ Hq). simpl. rewrite Hq. reflexivity.
Qed.

(** C9, as the code has it: when the cache entry of [q] exists and its data
    is [None], [get_latest_data(q, f)] returns the boolean [False], not
    [None], for every field path [f].  That differs from what a read gives
    when [q] has no entry, and from a read of an entry with data exactly when
    the field does not itself resolve to the boolean [False]: a resolved
    field holding [False] reads the same. *)
Theorem get_latest_data_null_data_is_False (s : PolestarApi)
    (cache : gmap string CacheEntry) (q : string) (entry : CacheEntry)
    (f : option string) :
  cache_data s = Some cache ->
  cache !! q = Some entry ->
  data entry = VNone ->
  get_latest_data s (Some q) f = Ok (VBool false) /\
  get_latest_data s (Some q) f <> Ok VNone /\
  (forall s0,
     cache_data s0 = Some ∅ ->
     get_latest_data s0 (Some q) f = Ok VNone) /\
  (forall s0 cache0,
     cache_data s0 = Some cache0 -> cache0 !! q = None ->
     get_latest_data s0 (Some q) f <> get_latest_data s (Some q) f) /\
  (forall s1 cache1 entry1,
     cache_data s1 = Some cache1 -> cache1 !! q = Some entry1 ->
     is_None (data entry1) = false ->
     (get_latest_data s1 (Some q) f = get_latest_data s (Some q) f <->
      _get_field_name_value f (data entry1) = Ok (VBool false))).
Proof.
  intros Hcache Hq Hdata.
  rewrite (get_latest_data_entry _ _ _ _ _ Hcache Hq), Hdata. simpl.
  split; [reflexivity | ]. split; [discriminate | ].
  split; [ | split ].
  - intros s0 H0. unfold get_latest_data. rewrite H0. reflexivity.
  - intros s0 cache0 H0 Hmiss. unfold get_latest_data. rewrite H0.
    destruct (negb (bool_decide (cache0 = ∅))); simpl;
      [rewrite Hmiss | ]; discriminate.
  - intros s1 cache1 entry1 H1 Hq1 Hdata1.
    rewrite (get_latest_data_entry _ _ _ _ _ H1 Hq1), Hdata1. reflexivity.
Qed.

(** C5, as the code has it: [get_latest_data] returns [None] when the cache
    is empty; when an entry exists for [q] it returns [False] if the entry's
    data is [None] and otherwise resolves [f] against the entry's data,
    whatever the entry's timestamp (no clock is read). *)
Theorem get_latest_data_ignores_freshness (s : PolestarApi)
    (cache : gmap string CacheEntry) (q f : option string) :
  cache_data s = Some cache ->
  (cache = ∅ -> get_latest_data s q f = Ok VNone) /\
  (forall k d ts, q = Some k -> cache !! k = Some (mkEntry d ts) ->
     get_latest_data s q f
       = if is_None d then Ok (VBool false) else _get_field_name_value f d).
Proof.
  intros Hcache. split.
  - intros ->. unfold get_latest_data. rewrite Hcache. reflexivity.
  - intros k d ts -> Hk.
    rewrite (get_latest_data_entry _ _ _ _ _ Hcache Hk). reflexivity.
Qed.

(** What a successful cache write leaves behind. *)
Lemma cache_put_ok (q : string) (d : value) (st st' : State) :
  cache_put q d st = (Ok tt, st') ->
  exists cache,
    cache_data (self st) = Some cache /\
    cache_data (self st')
      = Some (<[q := mkEntry d (now (world st))]> cache).
Proof.
  unfold cache_put, mbind, M_bind, bind, datetime_now, getattr. simpl.
  destruct (cache_data (self st)) as [cache | ]; simpl; intros H;
    inversion H; subst; simpl.
  exists cache. split; reflexivity.
Qed.

Lemma resolve_None (f : option string) : _get_field_name_value f VNone = Ok VNone.
Proof. destruct f; reflexivity. Qed.

(** C2: after a cache write [put(q, d)] at time [t0], a fresh read
    [get_cache_data(q, f)] (with [skip_cache] false) at a time [t >= t0]
    equals [_get_field_name_value(f, d)] when [t < t0 + TTL] and is [None]
    when [t >= t0 + TTL], where [TTL] is [timedelta(seconds=CACHE_TIME)]:
    the entry is fresh iff [now < timestamp + TTL], and reading does not
    move the timestamp. *)
Theorem get_cache_data_fresh_iff (q : string) (f : option string) (d : value)
    (st st' : State) (t : Z) :
  cache_put q d st = (Ok tt, st') ->
  now (world st) <= t ->
  (t < now (world st) + timedelta_seconds CACHE_TIME ->
     get_cache_data (self st') t (Some q) f false
       = _get_field_name_value f d) /\
  (now (world st) + timedelta_seconds CACHE_TIME <= t ->
     get_cache_data (self st') t (Some q) f false = Ok VNone).
Proof.
  intros Hput _.
  destruct (cache_put_ok _ _ _ _ Hput) as (cache & _ & Hcache).
  unfold get_cache_data.
  rewrite Hcache, (lookup_nonempty _ q _ (lookup_insert_eq _ _ _)),
    lookup_insert_eq.
  simpl. split; intros Ht.
  - destruct (Z.gtb_spec (now (world st) + timedelta_seconds CACHE_TIME) t);
      [ | lia ].
    destruct d; try reflexivity. symmetry; apply resolve_None.
  - destruct (Z.gtb_spec (now (world st) + timedelta_seconds CACHE_TIME) t);
      [ lia | reflexivity ].
Qed.

(** ** Field resolver *)

Lemma dict_get_truthy (data : value) key got :
  dict_get data key = Ok got ->
  truthy got = true ->
  getitem_str data key = Ok got /\ truthy data = true.
Proof.
  destruct data as [ | | | | | | d ]; simpl; try discriminate.
  destruct (d !! key) as [x | ] eqn:Hkey; simpl; intros [= <-] Hgot.
  - split; [reflexivity | ].
    apply negb_true_iff, bool_decide_eq_false. intros ->.
    rewrite lookup_empty in Hkey. discriminate.
  - discriminate.
Qed.







(** ** Query executor *)

(** C1, against the code: for every response whose [errors] list is non-empty
    with first message ["User not authenticated"], [get_graph_ql] raises
    [AttributeError] on [self.get_token]; the only calls made are the one for
    the headers and the one request, so no token is refreshed and no request
    is retried. *)
Theorem get_graph_ql_auth_failure_raises (depth : nat) (params : Params)
    (st : State) (h : Headers) (w1 w2 : World)
    (response first : gmap string value) (rest : list value) :
  auth_headers (auth (self st)) (world st) = (Ok h, w1) ->
  session_get_json (_session (self st)) API_URL params h w1
    = (Ok (VDict response), w2) ->
  response !! "errors" = Some (VList (VDict first :: rest)) ->
  first !! "message" = Some (VStr "User not authenticated") ->
  get_graph_ql (S depth) params st
    = (Raise (AttributeError "get_token"),
       mkState (self st) w2 (trace st ++ [EvHeaders; EvGet params])).
Proof.
  intros Hheaders Hget Herrors Hmessage.
  simpl. unfold mbind, M_bind, bind, get_self, call, lift. simpl.
  rewrite Hheaders. simpl. rewrite Hget. simpl.
  rewrite Herrors. simpl. rewrite Hmessage. simpl.
  rewrite <- app_assoc. reflexivity.
Qed.

(** ** Construction and the accessors *)

(** C6, against the code: the constructor does not create the cache; right
    after construction [cache_data] is unset and every read of a query name
    raises [AttributeError]. *)
Theorem constructor_leaves_cache_unset (session : option Session)
    (user pass : string) :
  cache_data (__init__ session user pass) = None /\
  forall t q f skip,
    get_cache_data (__init__ session user pass) t (Some q) f skip
      = Raise (AttributeError "cache_data") /\
    get_latest_data (__init__ session user pass) (Some q) f
      = Raise (AttributeError "cache_data").
Proof. split; [reflexivity | intros; split; reflexivity]. Qed.

(** C4, against the code: with a non-empty cache, [get_latest_data] raises
    [KeyError] for a query name that has no entry, and both accessors raise
    [KeyError] for a single-segment field that the cached mapping lacks. *)
Theorem accessor_reads_raise (s : PolestarApi) (cache : gmap string CacheEntry)
    (q q' f : string) (entry : CacheEntry) (d : gmap string value) :
  cache_data s = Some cache ->
  cache !! q = None ->
  cache !! q' = Some entry ->
  data entry = VDict d ->
  truthy (VDict d) = true ->
  contains_slash f = false ->
  d !! f = None ->
  get_latest_data s (Some q) (Some f) = Raise (KeyError (VStr q)) /\
  get_latest_data s (Some q') (Some f) = Raise (KeyError (VStr f)) /\
  forall t, get_cache_data s t (Some q') (Some f) true
            = Raise (KeyError (VStr f)).
Proof.
  intros Hcache Hq Hq' Hdata Hd Hslash Hf.
  assert (Hres : _get_field_name_value (Some f) (VDict d)
                 = Raise (KeyError (VStr f))).
  { unfold _get_field_name_value. rewrite Hd, Hslash. simpl.
    rewrite Hf. reflexivity. }
  split; [ | split ].
  - unfold get_latest_data.
    rewrite Hcache, (lookup_nonempty _ _ _ Hq'). simpl. rewrite Hq. reflexivity.
  - rewrite (get_latest_data_entry _ _ _ _ _ Hcache Hq'), Hdata. exact Hres.
  - intros t. unfold get_cache_data.
    rewrite Hcache, (lookup_nonempty _ _ _ Hq'), Hq', Hdata. exact Hres.
Qed.

(** * Further properties of the code *)

(** ** Cache store *)

Lemma cache_put_run (q : string) (d : value) (st : State) :
  cache_put q d st
  = match cache_data (self st) with
    | Some cache =>
        (Ok tt,
         mkState (set_cache_data (<[q := mkEntry d (now (world st))]> cache)
                                 (self st))
                 (world st) (trace st))
    | None => (Raise (AttributeError "cache_data"), st)
    end.
Proof.
  unfold cache_put, mbind, M_bind, bind, datetime_now, getattr. simpl.
  destruct (cache_data (self st)); reflexivity.
Qed.

Lemma get_cache_data_entry (s : PolestarApi) cache q entry t f skip :
  cache_data s = Some cache ->
  cache !! q = Some entry ->
  get_cache_data s t (Some q) f skip
  = if negb skip then
      if timestamp entry + timedelta_seconds CACHE_TIME >? t then
        _get_field_name_value f (data entry)
      else Ok VNone
    else _get_field_name_value f (data entry).
Proof.
  intros Hcache Hq. unfold get_cache_data.
  rewrite Hcache, (lookup_nonempty _ _ _ Hq), Hq. simpl.
  destruct (data entry) eqn:Hd; simpl; try reflexivity.
  rewrite resolve_None. destruct skip; simpl; [reflexivity | ].
  destruct (_ >? _); reflexivity.
Qed.

Lemma get_cache_data_miss (s : PolestarApi) cache q t f skip :
  cache_data s = Some cache ->
  q ≫= (cache !!.) = None ->
  get_cache_data s t q f skip = Ok VNone.
Proof.
  intros Hcache Hq. unfold get_cache_data.
  destruct q as [k | ]; [ | reflexivity ]. simpl in Hq.
  rewrite Hcache, Hq. destruct (negb _); reflexivity.
Qed.

(** X1: a read with [skip_cache] set ignores the timestamp: whenever the
    entry exists it resolves the field against the entry's data, at every
    time [t] (and an entry whose data is [None] reads as [None]). *)
Theorem get_cache_data_skip_cache_any_time (s : PolestarApi)
    (cache : gmap string CacheEntry) (q : string) (entry : CacheEntry)
    (t : Z) (f : option string) :
  cache_data s = Some cache ->
  cache !! q = Some entry ->
  get_cache_data s t (Some q) f true = _get_field_name_value f (data entry).
Proof.
  intros Hcache Hq.
  rewrite (get_cache_data_entry _ _ _ _ _ _ _ Hcache Hq). reflexivity.
Qed.

(** X2: once the cache exists, [get_cache_data] reads [None] for a query
    that is [None] or has no entry, in either mode and at every time; it does
    not raise. *)
Theorem get_cache_data_no_entry_is_None (s : PolestarApi)
    (cache : gmap string CacheEntry) (q f : option string) (t : Z)
    (skip : bool) :
  cache_data s = Some cache ->
  q ≫= (cache !!.) = None ->
  get_cache_data s t q f skip = Ok VNone.
Proof. apply get_cache_data_miss. Qed.

(** X3: the freshness check only ever withholds: a read without
    [skip_cache] is either [None] or exactly what the read with [skip_cache]
    gives (the same value, or the same exception). *)
Theorem get_cache_data_fresh_or_None (s : PolestarApi) (t : Z)
    (q f : option string) :
  get_cache_data s t q f false = Ok VNone \/
  get_cache_data s t q f false = get_cache_data s t q f true.
Proof.
  unfold get_cache_data.
  destruct q as [k | ]; [ | left; reflexivity ].
  destruct (cache_data s) as [cache | ]; [ | right; reflexivity ].
  destruct (negb (bool_decide (cache = ∅))); [ | left; reflexivity ].
  destruct (cache !! k) as [entry | ]; [ | left; reflexivity ].
  simpl. destruct (_ >? _); [right; reflexivity | left; reflexivity].
Qed.

(** X4: [get_latest_data] and [get_cache_data] with [skip_cache] agree on
    every entry whose data is not [None] (on [None] data the first gives
    [False], the second [None]). *)
Theorem get_latest_data_agrees_with_skip_cache (s : PolestarApi)
    (cache : gmap string CacheEntry) (q : string) (entry : CacheEntry)
    (t : Z) (f : option string) :
  cache_data s = Some cache ->
  cache !! q = Some entry ->
  is_None (data entry) = false ->
  get_latest_data s (Some q) f = get_cache_data s t (Some q) f true.
Proof.
  intros Hcache Hq Hdata.
  rewrite (get_latest_data_entry _ _ _ _ _ Hcache Hq), Hdata.
  rewrite (get_cache_data_entry _ _ _ _ _ _ _ Hcache Hq). reflexivity.
Qed.

(** X5: a cache write for one query does not change what [get_cache_data]
    reads for any other query, in either mode. *)
Theorem cache_put_other_query_unchanged (q q' : string) (d : value)
    (st st' : State) (t : Z) (f : option string) (skip : bool) :
  cache_put q d st = (Ok tt, st') ->
  q' <> q ->
  get_cache_data (self st') t (Some q') f skip
  = get_cache_data (self st) t (Some q') f skip.
Proof.
  intros Hput Hne.
  destruct (cache_put_ok _ _ _ _ Hput) as (cache & Hbefore & Hafter).
  destruct (cache !! q') as [entry | ] eqn:Hq'.
  - rewrite (get_cache_data_entry _ _ q' entry _ _ _ Hafter),
            (get_cache_data_entry _ _ q' entry _ _ _ Hbefore); [reflexivity | | ];
      [ exact Hq' | rewrite lookup_insert_ne by congruence; exact Hq' ].
  - rewrite (get_cache_data_miss _ _ (Some q') _ _ _ Hafter),
            (get_cache_data_miss _ _ (Some q') _ _ _ Hbefore); [reflexivity | | ];
      simpl; [ exact Hq' | rewrite lookup_insert_ne by congruence; exact Hq' ].
Qed.

(** X6: entries are superseded, not merged: after two writes for the same
    query the cache is what the second write alone would have left, and a
    read resolves against the second data. *)
Theorem cache_put_last_write_wins (q : string) (d1 d2 : value)
    (st st1 st2 : State) (cache : gmap string CacheEntry) (t : Z)
    (f : option string) :
  cache_data (self st) = Some cache ->
  cache_put q d1 st = (Ok tt, st1) ->
  cache_put q d2 st1 = (Ok tt, st2) ->
  cache_data (self st2) = Some (<[q := mkEntry d2 (now (world st1))]> cache) /\
  get_cache_data (self st2) t (Some q) f true = _get_field_name_value f d2.
Proof.
  intros Hcache Hput1 Hput2.
  destruct (cache_put_ok _ _ _ _ Hput1) as (c0 & Hc0 & Hc1).
  destruct (cache_put_ok _ _ _ _ Hput2) as (c1 & Hc1' & Hc2).
  rewrite Hcache in Hc0. injection Hc0 as <-.
  rewrite Hc1 in Hc1'. injection Hc1' as <-.
  rewrite insert_insert_eq in Hc2.
  split; [exact Hc2 | ].
  rewrite (get_cache_data_entry _ _ q (mkEntry d2 (now (world st1))) _ _ _ Hc2);
    [reflexivity | apply lookup_insert_eq].
Qed.

(** ** Field resolver, continued *)

Lemma split_slash_nonempty (s : string) : split_slash s <> [].
Proof.
  destruct s as [ | c r ]; simpl; [discriminate | ].
  destruct (Ascii.eqb c "/"); [discriminate | ].
  destruct (split_slash r); discriminate.
Qed.

Lemma split_slash_single (s : string) :
  contains_slash s = false -> split_slash s = [s].
Proof.
  induction s as [ | c r IH ]; simpl; [reflexivity | ].
  destruct (Ascii.eqb c "/"); simpl; [discriminate | ].
  intros H. rewrite (IH H). reflexivity.
Qed.

Lemma join_slash_cons (p : string) (rest : list string) :
  rest <> [] -> join_slash (p :: rest) = p +:+ "/" +:+ join_slash rest.
Proof. destruct rest; [congruence | reflexivity]. Qed.

Lemma join_slash_push (c : ascii) (p : string) (ps : list string) :
  join_slash (String c p :: ps) = String c (join_slash (p :: ps)).
Proof. destruct ps; reflexivity. Qed.

(** X9: splitting a field path on ['/'] loses nothing and leaves no
    separator behind: joining the segments with ['/'] gives the path back,
    and no segment contains ['/']. *)
Theorem split_slash_join_roundtrip (s : string) :
  join_slash (split_slash s) = s /\
  Forall (fun segment => contains_slash segment = false) (split_slash s).
Proof.
  induction s as [ | c r [IHjoin IHseg] ]; simpl.
  - split; [reflexivity | repeat constructor].
  - destruct (Ascii.eqb_spec c "/") as [-> | Hc].
    + split.
      * rewrite join_slash_cons by apply split_slash_nonempty.
        simpl. rewrite IHjoin. reflexivity.
      * constructor; [reflexivity | exact IHseg].
    + pose proof (split_slash_nonempty r) as Hne.
      destruct (split_slash r) as [ | p ps ]; [congruence | ].
      split.
      * rewrite join_slash_push, IHjoin. reflexivity.
      * inversion IHseg as [ | ? ? Hp Hps ]; subst.
        constructor; [ | exact Hps ].
        simpl. rewrite Hp.
        destruct (Ascii.eqb_spec c "/"); [congruence | reflexivity].
Qed.

Lemma walk_index_path (keys : list string) : forall data v,
  walk keys data = Ok v -> v = VNone \/ index_path keys data = Ok v.
Proof.
  induction keys as [ | key rest IH ]; intros data v; simpl.
  - intros [= ->]. right; reflexivity.
  - destruct (dict_get data key) as [got | e] eqn:Hget; cbn; [ | discriminate ].
    destruct (truthy got) eqn:Hgot.
    + destruct (dict_get_truthy _ _ _ Hget Hgot) as [-> _]. cbn.
      intros H. apply IH in H. exact H.
    + intros [= <-]. left; reflexivity.
Qed.

Lemma walk_raises (keys : list string) : forall data e,
  walk keys data = Raise e -> e = AttributeError "get".
Proof.
  induction keys as [ | key rest IH ]; intros data e; simpl; [discriminate | ].
  destruct (dict_get data key) as [got | e'] eqn:Hget; cbn.
  - destruct (truthy got) eqn:Hgot; [ | discriminate ].
    destruct (dict_get_truthy _ _ _ Hget Hgot) as [-> _]. cbn. apply IH.
  - intros [= <-]. destruct data; simpl in Hget; congruence.
Qed.

(** X7: the resolver never makes a value up: what it returns is [None] or
    the value that plain indexing [data[k1]...[kn]] along the segments of the
    path finds. *)
Theorem resolve_is_None_or_indexed (field : string) (data v : value) :
  _get_field_name_value (Some field) data = Ok v ->
  v = VNone \/ index_path (split_slash field) data = Ok v.
Proof.
  unfold _get_field_name_value.
  destruct (is_None data); [intros [= <-]; left; reflexivity | ].
  destruct (truthy data); [ | intros [= <-]; left; reflexivity ].
  destruct (contains_slash field) eqn:Hslash.
  - apply walk_index_path.
  - rewrite (split_slash_single _ Hslash). cbn. intros ->. right. reflexivity.
Qed.

(** X8: the exceptions of the resolver.  On a path with ['/'] it can only
    raise the [AttributeError] of calling [.get] on a value that is not a
    mapping, never a [KeyError]; on a path without ['/'] it can only raise
    [TypeError] (the document is not a mapping) or the [KeyError] of the
    missing field. *)
Theorem resolve_exceptions (f : option string) (data : value) (e : exn) :
  _get_field_name_value f data = Raise e ->
  exists field,
    f = Some field /\
    if contains_slash field then e = AttributeError "get"
    else e = TypeError \/ e = KeyError (VStr field).
Proof.
  destruct f as [field | ]; [ | discriminate ].
  intros H. exists field. split; [reflexivity | ].
  unfold _get_field_name_value in H.
  destruct (is_None data); [discriminate | ].
  destruct (truthy data); [ | discriminate ].
  destruct (contains_slash field).
  - apply (walk_raises _ _ _ H).
  - destruct data as [ | | | | | | d ]; simpl in H;
      try (left; congruence).
    destruct (d !! field); [discriminate | right; congruence].
Qed.

(** ** Query executor, continued *)

Ltac run_executor :=
  simpl; unfold mbind, M_bind, bind, get_self, call, lift, emit, ret, raise,
    self_get_token; simpl.

(** X10: a response without errors (no [errors] key, or a falsy one) is
    returned as it is, after one call for the headers, one request and one
    debug log. *)
Theorem get_graph_ql_returns_response (depth : nat) (params : Params)
    (st : State) (h : Headers) (w1 w2 : World)
    (response : gmap string value) :
  auth_headers (auth (self st)) (world st) = (Ok h, w1) ->
  session_get_json (_session (self st)) API_URL params h w1
    = (Ok (VDict response), w2) ->
  truthy (default VNone (response !! "errors")) = false ->
  get_graph_ql (S depth) params st
    = (Ok (VDict response),
       mkState (self st) w2
               (trace st ++ [EvHeaders; EvGet params; EvLog DEBUG])).
Proof.
  intros Hheaders Hget Herrors. run_executor.
  rewrite Hheaders. simpl. rewrite Hget. simpl. rewrite Herrors. simpl.
  rewrite <- !app_assoc. reflexivity.
Qed.

(** X11: an error list whose first message is not the authentication
    failure is logged as a warning and the response is returned as it is,
    the [errors] still in it: nothing is raised and nothing is retried. *)
Theorem get_graph_ql_other_error_passes (depth : nat) (params : Params)
    (st : State) (h : Headers) (w1 w2 : World)
    (response first : gmap string value) (rest : list value)
    (message : value) :
  auth_headers (auth (self st)) (world st) = (Ok h, w1) ->
  session_get_json (_session (self st)) API_URL params h w1
    = (Ok (VDict response), w2) ->
  response !! "errors" = Some (VList (VDict first :: rest)) ->
  first !! "message" = Some message ->
  eq_str message "User not authenticated" = false ->
  get_graph_ql (S depth) params st
    = (Ok (VDict response),
       mkState (self st) w2
               (trace st
                ++ [EvHeaders; EvGet params; EvLog WARNING; EvLog DEBUG])).
Proof.
  intros Hheaders Hget Herrors Hfirst Hmessage. run_executor.
  rewrite Hheaders. simpl. rewrite Hget. simpl. rewrite Herrors. simpl.
  rewrite Hfirst. simpl. rewrite Hmessage. simpl.
  rewrite <- !app_assoc. reflexivity.
Qed.

(** X12: an error list whose first error has no [message] makes the
    executor raise [KeyError] after the request, before anything is
    logged. *)
Theorem get_graph_ql_error_without_message (depth : nat) (params : Params)
    (st : State) (h : Headers) (w1 w2 : World)
    (response first : gmap string value) (rest : list value) :
  auth_headers (auth (self st)) (world st) = (Ok h, w1) ->
  session_get_json (_session (self st)) API_URL params h w1
    = (Ok (VDict response), w2) ->
  response !! "errors" = Some (VList (VDict first :: rest)) ->
  first !! "message" = None ->
  get_graph_ql (S depth) params st
    = (Raise (KeyError (VStr "message")),
       mkState (self st) w2 (trace st ++ [EvHeaders; EvGet params])).
Proof.
  intros Hheaders Hget Herrors Hfirst. run_executor.
  rewrite Hheaders. simpl. rewrite Hget. simpl. rewrite Herrors. simpl.
  rewrite Hfirst. simpl. rewrite <- !app_assoc. reflexivity.
Qed.

(** X13: an exception of a collaborator is propagated as it is: when the
    headers cannot be obtained no request is made, and when the request fails
    it is not repeated. *)
Theorem get_graph_ql_propagates (depth : nat) (params : Params) (st : State)
    (e : exn) (h : Headers) (w1 w2 : World) :
  (auth_headers (auth (self st)) (world st) = (Raise e, w1) ->
   get_graph_ql (S depth) params st
     = (Raise e, mkState (self st) w1 (trace st ++ [EvHeaders]))) /\
  (auth_headers (auth (self st)) (world st) = (Ok h, w1) ->
   session_get_json (_session (self st)) API_URL params h w1 = (Raise e, w2) ->
   get_graph_ql (S depth) params st
     = (Raise e,
        mkState (self st) w2 (trace st ++ [EvHeaders; EvGet params]))).
Proof.
  split.
  - intros Hheaders. run_executor. rewrite Hheaders. reflexivity.
  - intros Hheaders Hget. run_executor.
    rewrite Hheaders. simpl. rewrite Hget. simpl.
    rewrite <- !app_assoc. reflexivity.
Qed.

(** One level of [get_graph_ql] never reaches its recursive call. *)
Lemma get_graph_ql_level (depth : nat) (params : Params) (st : State) :
  get_graph_ql (S depth) params st = get_graph_ql 1 params st.
Proof.
  run_executor.
  destruct (auth_headers (auth (self st)) (world st)) as [[h | e] w1];
    simpl; [ | reflexivity ].
  destruct (session_get_json (_session (self st)) API_URL params h w1)
    as [[resultData | e] w2]; simpl; [ | reflexivity ].
  destruct (dict_get resultData "errors") as [errors | e]; simpl;
    [ | reflexivity ].
  destruct (truthy errors); simpl; [ | reflexivity ].
  destruct (getitem_str resultData "errors") as [errors' | e]; simpl;
    [ | reflexivity ].
  destruct (getitem_0 errors') as [first | e]; simpl; [ | reflexivity ].
  destruct (getitem_str first "message") as [message | e]; simpl;
    [ | reflexivity ].
  destruct (eq_str message "User not authenticated"); reflexivity.
Qed.

(** X15: the depth bound never matters once it is positive: the recursive
    call of [get_graph_ql] is unreachable (the lookup of [self.get_token]
    raises first), so the call gives the same outcome and the same state at
    every positive depth. *)
Theorem get_graph_ql_never_recurses (depth : nat) (params : Params)
    (st : State) :
  get_graph_ql (S depth) params st = get_graph_ql 1 params st.
Proof. apply get_graph_ql_level. Qed.

Ltac close_trace :=
  simpl; eexists; split; [ rewrite <- ?app_assoc; reflexivity | ];
  simpl; auto.

(** X14: whatever the collaborators answer, one call of [get_graph_ql]
    asks for the headers once, sends at most one request and never asks the
    authentication provider for a token: the calls it adds to the trace are
    one of four sequences. *)
Theorem get_graph_ql_calls (depth : nat) (params : Params) (st : State) :
  exists calls : list event,
    trace (get_graph_ql (S depth) params st).2 = (trace st ++ calls)%list /\
    (calls = [EvHeaders] \/
     calls = [EvHeaders; EvGet params] \/
     calls = [EvHeaders; EvGet params; EvLog DEBUG] \/
     calls = [EvHeaders; EvGet params; EvLog WARNING; EvLog DEBUG]).
Proof.
  run_executor.
  destruct (auth_headers (auth (self st)) (world st)) as [[h | e] w1];
    simpl; [ | close_trace ].
  destruct (session_get_json (_session (self st)) API_URL params h w1)
    as [[resultData | e] w2]; simpl; [ | close_trace ].
  destruct (dict_get resultData "errors") as [errors | e]; simpl;
    [ | close_trace ].
  destruct (truthy errors); simpl; [ | close_trace ].
  destruct (getitem_str resultData "errors") as [errors' | e]; simpl;
    [ | close_trace ].
  destruct (getitem_0 errors') as [first | e]; simpl; [ | close_trace ].
  destruct (getitem_str first "message") as [message | e]; simpl;
    [ | close_trace ].
  destruct (eq_str message "User not authenticated"); close_trace.
Qed.

(** X16: the query executor and the three queries built on it never assign
    an attribute: whatever they return or raise, the object is left as it
    was. *)
Theorem queries_keep_object (depth : nat) (params : Params) (st : State) :
  self (get_graph_ql depth params st).2 = self st /\
  self (get_odo_data depth st).2 = self st /\
  self (get_battery_data depth st).2 = self st /\
  self (get_vehicle_data depth st).2 = self st.
Proof.
  repeat split.
  - apply (get_graph_ql_frame (fun s => s)).
  - assert (H : preserves (fun s => s) (get_odo_data depth))
      by (unfold get_odo_data; frame).
    apply H.
  - assert (H : preserves (fun s => s) (get_battery_data depth))
      by (unfold get_battery_data; frame).
    apply H.
  - apply (get_vehicle_data_frame (fun s => s)).
Qed.

(** ** Vehicle session, continued *)

(** How a refresh runs: fetch, pick the sub-object, store it. *)
Lemma refresh_run (fetch : M value) (q : string) (st : State) :
  preserves (fun s => s) fetch ->
  (result ← fetch; d ← lift (result_data result q); cache_put q d) st
  = match fetch st with
    | (Ok result, st1) =>
        match result_data result q with
        | Ok d =>
            match cache_data (self st) with
            | Some cache =>
                (Ok tt,
                 mkState (set_cache_data
                            (<[q := mkEntry d (now (world st1))]> cache)
                            (self st))
                         (world st1) (trace st1))
            | None => (Raise (AttributeError "cache_data"), st1)
            end
        | Raise e => (Raise e, st1)
        end
    | (Raise e, st1) => (Raise e, st1)
    end.
Proof.
  intros Hfetch. unfold mbind, M_bind, bind, lift.
  specialize (Hfetch st).
  destruct (fetch st) as [[result | e] st1]; simpl in *; [ | reflexivity ].
  destruct (result_data result q) as [d | e]; [ | reflexivity ].
  rewrite cache_put_run, Hfetch. reflexivity.
Qed.

Lemma get_odo_data_frame {X} (f : PolestarApi -> X) depth :
  preserves f (get_odo_data depth).
Proof. unfold get_odo_data. frame. Qed.

Lemma get_battery_data_frame {X} (f : PolestarApi -> X) depth :
  preserves f (get_battery_data depth).
Proof. unfold get_battery_data. frame. Qed.

Lemma getOdometerData_run (depth : nat) (st : State) :
  getOdometerData depth st
  = match get_odo_data depth st with
    | (Ok result, st1) =>
        match result_data result "getOdometerData" with
        | Ok d =>
            match cache_data (self st) with
            | Some cache =>
                (Ok tt,
                 mkState (set_cache_data
                            (<["getOdometerData"
                               := mkEntry d (now (world st1))]> cache)
                            (self st))
                         (world st1) (trace st1))
            | None => (Raise (AttributeError "cache_data"), st1)
            end
        | Raise e => (Raise e, st1)
        end
    | (Raise e, st1) => (Raise e, st1)
    end.
Proof. apply refresh_run, get_odo_data_frame. Qed.

Lemma getBatteryData_run (depth : nat) (st : State) :
  getBatteryData depth st
  = match get_battery_data depth st with
    | (Ok result, st1) =>
        match result_data result "getBatteryData" with
        | Ok d =>
            match cache_data (self st) with
            | Some cache =>
                (Ok tt,
                 mkState (set_cache_data
                            (<["getBatteryData"
                               := mkEntry d (now (world st1))]> cache)
                            (self st))
                         (world st1) (trace st1))
            | None => (Raise (AttributeError "cache_data"), st1)
            end
        | Raise e => (Raise e, st1)
        end
    | (Raise e, st1) => (Raise e, st1)
    end.
Proof. apply refresh_run, get_battery_data_frame. Qed.

(** X17: a refresh that returns has stored exactly the query's sub-object
    [result['data'][name]] of the fetched response under the query's name,
    stamped with the clock read after the fetch; the rest of the object and
    the other cache entries are as before, and nothing is called after the
    fetch. *)
Theorem refresh_writes_entry (depth : nat) (st st' : State) :
  (getOdometerData depth st = (Ok tt, st') ->
   exists result st1 d cache,
     get_odo_data depth st = (Ok result, st1) /\
     result_data result "getOdometerData" = Ok d /\
     cache_data (self st) = Some cache /\
     st' = mkState (set_cache_data
                      (<["getOdometerData" := mkEntry d (now (world st1))]>
                         cache)
                      (self st))
                   (world st1) (trace st1)) /\
  (getBatteryData depth st = (Ok tt, st') ->
   exists result st1 d cache,
     get_battery_data depth st = (Ok result, st1) /\
     result_data result "getBatteryData" = Ok d /\
     cache_data (self st) = Some cache /\
     st' = mkState (set_cache_data
                      (<["getBatteryData" := mkEntry d (now (world st1))]>
                         cache)
                      (self st))
                   (world st1) (trace st1)).
Proof.
  split.
  - rewrite getOdometerData_run.
    destruct (get_odo_data depth st) as [[result | e] st1]; [ | discriminate ].
    destruct (result_data result "getOdometerData") as [d | e] eqn:Hd;
      [ | discriminate ].
    destruct (cache_data (self st)) as [cache | ]; [ | discriminate ].
    intros [= <-]. exists result, st1, d, cache. auto.
  - rewrite getBatteryData_run.
    destruct (get_battery_data depth st) as [[result | e] st1];
      [ | discriminate ].
    destruct (result_data result "getBatteryData") as [d | e] eqn:Hd;
      [ | discriminate ].
    destruct (cache_data (self st)) as [cache | ]; [ | discriminate ].
    intros [= <-]. exists result, st1, d, cache. auto.
Qed.

(** X18: a refresh that raises has changed nothing in the object: the cache
    keeps its previous entries (the store is the last statement). *)
Theorem refresh_failure_keeps_object (depth : nat) (st st' : State) (e : exn) :
  (getOdometerData depth st = (Raise e, st') -> self st' = self st) /\
  (getBatteryData depth st = (Raise e, st') -> self st' = self st).
Proof.
  split.
  - rewrite getOdometerData_run.
    pose proof (get_odo_data_frame (fun s => s) depth st) as Hself.
    destruct (get_odo_data depth st) as [[result | e1] st1]; simpl in Hself.
    + destruct (result_data result "getOdometerData") as [d | e2].
      * destruct (cache_data (self st)); [discriminate | ].
        intros [= _ <-]. exact Hself.
      * intros [= _ <-]. exact Hself.
    + intros [= _ <-]. exact Hself.
  - rewrite getBatteryData_run.
    pose proof (get_battery_data_frame (fun s => s) depth st) as Hself.
    destruct (get_battery_data depth st) as [[result | e1] st1]; simpl in Hself.
    + destruct (result_data result "getBatteryData") as [d | e2].
      * destruct (cache_data (self st)); [discriminate | ].
        intros [= _ <-]. exact Hself.
      * intros [= _ <-]. exact Hself.
    + intros [= _ <-]. exact Hself.
Qed.

(** X19: without a string [vin] (before [init], or after a car whose [vin]
    is not a string) both refreshes raise while building the query, an
    [AttributeError] or a [TypeError]: no request is sent and the state is
    unchanged. *)
Theorem refresh_needs_vin (depth : nat) (st : State) :
  (forall s, vin (self st) <> Some (VStr s)) ->
  exists e,
    (e = AttributeError "vin" \/ e = TypeError) /\
    getOdometerData depth st = (Raise e, st) /\
    getBatteryData depth st = (Raise e, st).
Proof.
  intros Hvin.
  unfold getOdometerData, getBatteryData, get_odo_data, get_battery_data,
    vin_variables, mbind, M_bind, bind, getattr, lift.
  destruct (vin (self st)) as [v | ] eqn:Hv.
  - destruct v;
      try (exists TypeError; split; [right; reflexivity | split; reflexivity]).
    exfalso. eapply Hvin. reflexivity.
  - exists (AttributeError "vin").
    split; [left; reflexivity | split; reflexivity].
Qed.

(** How [init] runs once the vehicle list has arrived with a first car. *)
Lemma init_run (depth : nat) (st st2 : State) (w1 : World)
    (result car : value) (rest : list value) :
  auth_get_token (auth (self st)) (world st) = (Ok tt, w1) ->
  get_vehicle_data depth (mkState (self st) w1 (trace st ++ [EvGetToken]))
    = (Ok result, st2) ->
  result_data result "getConsumerCarsV2" = Ok (VList (car :: rest)) ->
  init depth st
  = (cache_put "getConsumerCarsV2" car;;
     v ← lift (getitem_str car "vin");
     setattr (set_vin v);;
     v ← getattr "vin" vin;
     short ← lift (slice_to 8 v);
     setattr (set_id short);;
     v ← getattr "vin" vin;
     tail ← lift (slice_last 4 v);
     display ← lift (str_add "Polestar " tail);
     setattr (set_name (VStr display)))
      (mkState (self st) (world st2) (trace st2)).
Proof.
  intros Htoken Hfetch Hcars.
  pose proof (get_vehicle_data_frame (fun s => s) depth
                (mkState (self st) w1 (trace st ++ [EvGetToken]))) as Hself.
  rewrite Hfetch in Hself. simpl in Hself.
  unfold init. unfold mbind at 1 2 3 4 5 6. unfold M_bind, bind at 1 2 3 4 5 6.
  unfold get_self at 1. unfold call at 1. rewrite Htoken, Hfetch.
  unfold lift at 1. rewrite Hcars. simpl.
  destruct st2 as [s2 w2 tr2]; simpl in *; subst s2. reflexivity.
Qed.

(** X20: when the vehicle list arrives with a first car whose [vin] is a
    string and the cache exists, [init] returns with the first car stored
    under ['getConsumerCarsV2'] (stamped with the clock after the fetch),
    [vin] set to the car's vin, [id] to its first 8 characters and [name] to
    ["Polestar "] followed by its last 4 characters; the other cars are
    ignored. *)
Theorem init_selects_first_car (depth : nat) (st st2 : State) (w1 : World)
    (result : value) (fields : gmap string value) (rest : list value)
    (v : string) (cache : gmap string CacheEntry) :
  auth_get_token (auth (self st)) (world st) = (Ok tt, w1) ->
  get_vehicle_data depth (mkState (self st) w1 (trace st ++ [EvGetToken]))
    = (Ok result, st2) ->
  result_data result "getConsumerCarsV2" = Ok (VList (VDict fields :: rest)) ->
  fields !! "vin" = Some (VStr v) ->
  cache_data (self st) = Some cache ->
  init depth st
  = (Ok tt,
     mkState
       (mkApi (username (self st)) (password (self st))
              (_session (self st)) (auth (self st))
              (Some (<["getConsumerCarsV2"
                       := mkEntry (VDict fields) (now (world st2))]> cache))
              (Some (VStr v))
              (Some (VStr (string_take 8 v)))
              (Some (VStr ("Polestar "
                           +:+ string_drop (String.length v - 4) v)))
              (updating (self st)))
       (world st2) (trace st2)).
Proof.
  intros Htoken Hfetch Hcars Hvin Hcache.
  rewrite (init_run _ _ _ _ _ _ _ Htoken Hfetch Hcars).
  unfold mbind at 1. unfold M_bind, bind at 1.
  rewrite cache_put_run. simpl. rewrite Hcache.
  unfold mbind, M_bind, bind, lift, setattr, getattr, get_self, put_self.
  simpl. rewrite Hvin. reflexivity.
Qed.

(** X21: [init] is not all-or-nothing: when the first car has no [vin]
    key, it raises [KeyError] after the cache entry has been written, and
    [vin], [id] and [name] are left as they were. *)
Theorem init_car_without_vin (depth : nat) (st st2 : State) (w1 : World)
    (result : value) (fields : gmap string value) (rest : list value)
    (cache : gmap string CacheEntry) :
  auth_get_token (auth (self st)) (world st) = (Ok tt, w1) ->
  get_vehicle_data depth (mkState (self st) w1 (trace st ++ [EvGetToken]))
    = (Ok result, st2) ->
  result_data result "getConsumerCarsV2" = Ok (VList (VDict fields :: rest)) ->
  fields !! "vin" = None ->
  cache_data (self st) = Some cache ->
  init depth st
  = (Raise (KeyError (VStr "vin")),
     mkState
       (set_cache_data
          (<["getConsumerCarsV2"
             := mkEntry (VDict fields) (now (world st2))]> cache)
          (self st))
       (world st2) (trace st2)).
Proof.
  intros Htoken Hfetch Hcars Hvin Hcache.
  rewrite (init_run _ _ _ _ _ _ _ Htoken Hfetch Hcars).
  unfold mbind at 1. unfold M_bind, bind at 1.
  rewrite cache_put_run. simpl. rewrite Hcache.
  unfold mbind, M_bind, bind, lift. simpl. rewrite Hvin. reflexivity.
Qed.

(** X22: [init] cannot return on an object whose [cache_data] has not been
    assigned, which is how the constructor leaves it: whatever the
    collaborators answer, it raises. *)
Theorem init_needs_cache (depth : nat) (st : State) :
  cache_data (self st) = None ->
  exists e, (init depth st).1 = Raise e.
Proof.
  intros Hcache.
  unfold init, mbind, M_bind, bind, get_self, call, lift. simpl.
  destruct (auth_get_token (auth (self st)) (world st)) as [[[] | e] w1];
    simpl; [ | eauto ].
  pose proof (get_vehicle_data_frame cache_data depth
                (mkState (self st) w1 (trace st ++ [EvGetToken]))) as Hself.
  destruct (get_vehicle_data depth
              (mkState (self st) w1 (trace st ++ [EvGetToken])))
    as [[result | e] st2]; simpl in *; [ | eauto ].
  destruct (result_data result "getConsumerCarsV2") as [cars | e];
    simpl; [ | eauto ].
  destruct (is_None cars); simpl; [ eauto | ].
  destruct (len cars) as [n | e]; simpl; [ | eauto ].
  destruct (n =? 0); simpl; [ eauto | ].
  destruct (getitem_0 cars) as [car | e]; simpl; [ | eauto ].
  rewrite cache_put_run, Hself, Hcache. simpl. eauto.
Qed.


Lemma string_take_drop (n : nat) : forall s,
  string_take n s +:+ string_drop n s = s.
Proof.
  induction n as [ | n IH ]; intros [ | c r ]; simpl; try reflexivity.
  change (String c (string_take n r +:+ string_drop n r) = String c r).
  rewrite IH. reflexivity.
Qed.

Lemma string_take_length (n : nat) : forall s,
  String.length (string_take n s) = Nat.min n (String.length s).
Proof.
  induction n as [ | n IH ]; intros [ | c r ]; simpl; try reflexivity.
  rewrite IH. reflexivity.
Qed.

Lemma string_drop_length (n : nat) : forall s,
  String.length (string_drop n s) = (String.length s - n)%nat.
Proof.
  induction n as [ | n IH ]; intros [ | c r ]; simpl; try reflexivity.
  apply IH.
Qed.

(** X24: the two slices [init] takes of a string vin: [vin[:8]] is a prefix
    of the vin with [min 8 (len vin)] characters and [vin[-4:]] is a suffix
    with [min 4 (len vin)] characters, so a vin shorter than the slice is
    taken whole and nothing is raised. *)
Theorem vin_slices (v : string) :
  exists short tail : string,
    slice_to 8 (VStr v) = Ok (VStr short) /\
    slice_last 4 (VStr v) = Ok (VStr tail) /\
    (exists rest, v = short +:+ rest) /\
    (exists front, v = front +:+ tail) /\
    String.length short = Nat.min 8 (String.length v) /\
    String.length tail = Nat.min 4 (String.length v).
Proof.
  exists (string_take 8 v), (string_drop (String.length v - 4) v).
  split; [reflexivity | ]. split; [reflexivity | ].
  split; [ | split; [ | split ] ].
  - exists (string_drop 8 v). symmetry. apply string_take_drop.
  - exists (string_take (String.length v - 4) v).
    symmetry. apply string_take_drop.
  - apply string_take_length.
  - rewrite string_drop_length. lia.
Qed.

End Properties.

(** * The properties at concrete inputs *)

#[local] Existing Instance scripted.

(** C1 at a scripted transport: the first response is the authentication
    failure, a second response is ready but never requested. *)
Lemma get_graph_ql_auth_failure_raises_witness :
  get_graph_ql 1000 some_params
    (start fresh_api 0 [Ok auth_failure; Ok odometer_response])
  = (Raise (AttributeError "get_token"),
     mkState fresh_api (mkScript 0 [Ok odometer_response])
             [EvHeaders; EvGet some_params]).
Proof.
  eapply (get_graph_ql_auth_failure_raises 999 some_params
            (start fresh_api 0 [Ok auth_failure; Ok odometer_response]) tt
            (mkScript 0 [Ok auth_failure; Ok odometer_response])
            (mkScript 0 [Ok odometer_response]));
    reflexivity.
Defined.

(** C2 with the battery document written at time 1000 and a TTL of 600 s:
    fresh five microseconds later, stale once the TTL has elapsed. *)
Lemma get_cache_data_fresh_iff_witness :
  get_cache_data
    (api_with {[ "getBatteryData" := mkEntry battery 1000 ]} None None)
    1005 (Some "getBatteryData") (Some "batteryChargeLevelPercentage") false
  = Ok (VInt 80) /\
  get_cache_data
    (api_with {[ "getBatteryData" := mkEntry battery 1000 ]} None None)
    600001000 (Some "getBatteryData") (Some "batteryChargeLevelPercentage")
    false
  = Ok VNone.
Proof.
  pose (st0 := start (api_with ∅ None None) 1000 []).
  pose (st1 := start (api_with {[ "getBatteryData" := mkEntry battery 1000 ]}
                               None None) 1000 []).
  assert (Hput : cache_put "getBatteryData" battery st0 = (Ok tt, st1))
    by (vm_compute; reflexivity).
  split.
  - refine (proj1 (get_cache_data_fresh_iff "getBatteryData"
                     (Some "batteryChargeLevelPercentage") battery
                     st0 st1 1005 Hput _) _);
      vm_compute; first [reflexivity | discriminate].
  - refine (proj2 (get_cache_data_fresh_iff "getBatteryData"
                     (Some "batteryChargeLevelPercentage") battery
                     st0 st1 600001000 Hput _) _);
      vm_compute; first [reflexivity | discriminate].
Defined.



(** C4 in the state [init] leaves: the odometer was never fetched and the
    car document has no [registrationNo]. *)
Lemma accessor_reads_raise_witness :
  get_latest_data (self initialized) (Some "getOdometerData")
                  (Some "registrationNo")
    = Raise (KeyError (VStr "getOdometerData")) /\
  get_latest_data (self initialized) (Some "getConsumerCarsV2")
                  (Some "registrationNo")
    = Raise (KeyError (VStr "registrationNo")) /\
  forall t, get_cache_data (self initialized) t (Some "getConsumerCarsV2")
                           (Some "registrationNo") true
            = Raise (KeyError (VStr "registrationNo")).
Proof.
  apply (accessor_reads_raise (self initialized)
           {[ "getConsumerCarsV2" := mkEntry car 0 ]}
           "getOdometerData" "getConsumerCarsV2" "registrationNo"
           (mkEntry car 0) {[ "vin" := VStr "YSMYKEAE7RB000001" ]});
    reflexivity.
Defined.

(** C5 as the claim states it fails on an entry whose data is [None]: the
    read yields [False], not what the resolver gives on that data. *)
Lemma get_latest_data_null_counterexample :
  cache_data null_battery_api
    = Some {[ "getBatteryData" := mkEntry VNone 0 ]} /\
  get_latest_data null_battery_api (Some "getBatteryData")
                  (Some "batteryChargeLevelPercentage")
    <> _get_field_name_value (Some "batteryChargeLevelPercentage") VNone.
Proof. split; [reflexivity | vm_compute; discriminate]. Qed.

Lemma get_latest_data_ignores_freshness_witness :
  get_latest_data
    (api_with {[ "getBatteryData" := mkEntry battery 1000 ]} None None)
    (Some "getBatteryData") (Some "batteryChargeLevelPercentage")
  = Ok (VInt 80).
Proof.
  refine (proj2 (get_latest_data_ignores_freshness
                   (api_with {[ "getBatteryData" := mkEntry battery 1000 ]}
                             None None)
                   {[ "getBatteryData" := mkEntry battery 1000 ]}
                   (Some "getBatteryData")
                   (Some "batteryChargeLevelPercentage") eq_refl)
            "getBatteryData" battery 1000 eq_refl _).
  vm_compute; reflexivity.
Defined.

(** C7 on an account without cars. *)
Lemma init_no_vehicles_witness :
  exists w tr,
    init 5 (start fresh_api 0 [Ok (cars_response (VList []))])
    = (Raise (PolestarApiException "No cars found in account"),
       mkState fresh_api w tr).
Proof.
  eexists; eexists.
  eapply (init_no_vehicles 5
            (start fresh_api 0 [Ok (cars_response (VList []))])
            _ (mkScript 0 [Ok (cars_response (VList []))])
            (cars_response (VList [])) (VList []));
    [ reflexivity | reflexivity | reflexivity | right; reflexivity ].
Defined.

(** C8 with a response waiting that is never fetched. *)
Lemma get_ev_data_in_flight_noop_witness :
  get_ev_data 5
    (start (api_with ∅ (Some (VStr "YSMYKEAE7RB000001")) (Some (VBool true)))
           0 [Ok odometer_response])
  = (Ok tt,
     start (api_with ∅ (Some (VStr "YSMYKEAE7RB000001")) (Some (VBool true)))
           0 [Ok odometer_response]).
Proof. apply get_ev_data_in_flight_noop. reflexivity. Defined.

(** C9 as the claim states it fails on a car whose [hasPerformancePackage]
    is the boolean [False]: the field resolves, and the read gives the same
    [False] as the read of an entry whose data is [None]. *)
Lemma get_latest_data_False_not_distinct_counterexample :
  is_None plain_car = false /\
  _get_field_name_value (Some "hasPerformancePackage") plain_car
    = Ok (VBool false) /\
  get_latest_data plain_car_api (Some "getConsumerCarsV2")
                  (Some "hasPerformancePackage")
    = get_latest_data null_car_api (Some "getConsumerCarsV2")
                      (Some "hasPerformancePackage").
Proof. repeat split; vm_compute; reflexivity. Qed.

(** C9 on the "not found" marker, against an empty cache, a cache without
    the query, and a cache that holds the battery document. *)
Lemma get_latest_data_null_data_is_False_witness :
  get_latest_data null_battery_api (Some "getBatteryData")
                  (Some "batteryChargeLevelPercentage")
    = Ok (VBool false) /\
  get_latest_data null_battery_api (Some "getBatteryData")
                  (Some "batteryChargeLevelPercentage")
    <> Ok VNone /\
  get_latest_data (api_with ∅ None None) (Some "getBatteryData")
                  (Some "batteryChargeLevelPercentage")
    = Ok VNone /\
  get_latest_data null_car_api (Some "getBatteryData")
                  (Some "batteryChargeLevelPercentage")
    <> get_latest_data null_battery_api (Some "getBatteryData")
                       (Some "batteryChargeLevelPercentage") /\
  get_latest_data
    (api_with {[ "getBatteryData" := mkEntry battery 1000 ]} None None)
    (Some "getBatteryData") (Some "batteryChargeLevelPercentage")
    <> get_latest_data null_battery_api (Some "getBatteryData")
                       (Some "batteryChargeLevelPercentage").
Proof.
  assert (Hentry : ({[ "getBatteryData" := mkEntry VNone 0 ]}
                      : gmap string CacheEntry) !! "getBatteryData"
                   = Some (mkEntry VNone 0)) by (vm_compute; reflexivity).
  pose proof (get_latest_data_null_data_is_False null_battery_api
                {[ "getBatteryData" := mkEntry VNone 0 ]} "getBatteryData"
                (mkEntry VNone 0) (Some "batteryChargeLevelPercentage")
                eq_refl Hentry eq_refl)
    as (Hfalse & Hnot & Hempty & Hmiss & Hfield).
  split; [exact Hfalse | ]. split; [exact Hnot | ].
  split; [apply Hempty; reflexivity | ].
  split.
  - apply (Hmiss null_car_api {[ "getConsumerCarsV2" := mkEntry VNone 0 ]});
      vm_compute; reflexivity.
  - intros Hsame.
    apply (Hfield
             (api_with {[ "getBatteryData" := mkEntry battery 1000 ]} None None)
             {[ "getBatteryData" := mkEntry battery 1000 ]}
             (mkEntry battery 1000)) in Hsame;
      [ | reflexivity | vm_compute; reflexivity | reflexivity ].
    vm_compute in Hsame. discriminate Hsame.
Defined.

(** C10 when the odometer refresh succeeds and the battery request fails in
    the transport. *)
Lemma get_ev_data_flag_stays_set_witness :
  updating (self interrupted) = Some (VBool true) /\
  forall depth', get_ev_data depth' interrupted = (Ok tt, interrupted).
Proof.
  exact (get_ev_data_flag_stays_set 5
           (start (api_with ∅ (Some (VStr "YSMYKEAE7RB000001"))
                            (Some (VBool false)))
                  0 [Ok odometer_response])
           interrupted (VBool false) (Raise (ExternalError "no response"))
           eq_refl eq_refl eq_refl).
Defined.

(** * The further properties at concrete inputs *)

Lemma get_cache_data_skip_cache_any_time_witness :
  get_cache_data
    (api_with {[ "getBatteryData" := mkEntry battery 1000 ]} None None)
    1000000000000 (Some "getBatteryData")
    (Some "batteryChargeLevelPercentage") true
  = Ok (VInt 80).
Proof.
  refine (get_cache_data_skip_cache_any_time
            (api_with {[ "getBatteryData" := mkEntry battery 1000 ]} None None)
            {[ "getBatteryData" := mkEntry battery 1000 ]} "getBatteryData"
            (mkEntry battery 1000) 1000000000000
            (Some "batteryChargeLevelPercentage") eq_refl _).
  vm_compute; reflexivity.
Defined.

Lemma get_cache_data_no_entry_is_None_witness :
  get_cache_data
    (api_with {[ "getBatteryData" := mkEntry battery 1000 ]} None None)
    1005 (Some "getOdometerData") (Some "odometerMeters") false
  = Ok VNone.
Proof.
  refine (get_cache_data_no_entry_is_None
            (api_with {[ "getBatteryData" := mkEntry battery 1000 ]} None None)
            {[ "getBatteryData" := mkEntry battery 1000 ]}
            (Some "getOdometerData") (Some "odometerMeters") 1005 false
            eq_refl _).
  vm_compute; reflexivity.
Defined.

Lemma get_latest_data_agrees_with_skip_cache_witness :
  get_latest_data
    (api_with {[ "getBatteryData" := mkEntry battery 1000 ]} None None)
    (Some "getBatteryData") (Some "batteryChargeLevelPercentage")
  = get_cache_data
      (api_with {[ "getBatteryData" := mkEntry battery 1000 ]} None None)
      1000000000000 (Some "getBatteryData")
      (Some "batteryChargeLevelPercentage") true.
Proof.
  refine (get_latest_data_agrees_with_skip_cache
            (api_with {[ "getBatteryData" := mkEntry battery 1000 ]} None None)
            {[ "getBatteryData" := mkEntry battery 1000 ]} "getBatteryData"
            (mkEntry battery 1000) 1000000000000
            (Some "batteryChargeLevelPercentage") eq_refl _ eq_refl).
  vm_compute; reflexivity.
Defined.

Lemma cache_put_other_query_unchanged_witness :
  get_cache_data
    (api_with (<[ "getOdometerData" := mkEntry odometer 2000 ]>
                 {[ "getBatteryData" := mkEntry battery 1000 ]}) None None)
    2005 (Some "getBatteryData") (Some "batteryChargeLevelPercentage") false
  = get_cache_data
      (api_with {[ "getBatteryData" := mkEntry battery 1000 ]} None None)
      2005 (Some "getBatteryData") (Some "batteryChargeLevelPercentage") false.
Proof.
  refine (cache_put_other_query_unchanged "getOdometerData" "getBatteryData"
            odometer
            (start (api_with {[ "getBatteryData" := mkEntry battery 1000 ]}
                             None None) 2000 [])
            (start (api_with
                      (<[ "getOdometerData" := mkEntry odometer 2000 ]>
                         {[ "getBatteryData" := mkEntry battery 1000 ]})
                      None None) 2000 [])
            2005 (Some "batteryChargeLevelPercentage") false _ _).
  - vm_compute; reflexivity.
  - discriminate.
Defined.

Lemma cache_put_last_write_wins_witness :
  cache_data (api_with {[ "getBatteryData" := mkEntry battery 3000 ]} None None)
  = Some (<[ "getBatteryData" := mkEntry battery 3000 ]> ∅) /\
  get_cache_data
    (api_with {[ "getBatteryData" := mkEntry battery 3000 ]} None None)
    0 (Some "getBatteryData") (Some "batteryChargeLevelPercentage") true
  = _get_field_name_value (Some "batteryChargeLevelPercentage") battery.
Proof.
  refine (cache_put_last_write_wins "getBatteryData" VNone battery
            (start (api_with ∅ None None) 3000 [])
            (start (api_with {[ "getBatteryData" := mkEntry VNone 3000 ]}
                             None None) 3000 [])
            (start (api_with {[ "getBatteryData" := mkEntry battery 3000 ]}
                             None None) 3000 [])
            ∅ 0 (Some "batteryChargeLevelPercentage") eq_refl _ _);
    vm_compute; reflexivity.
Defined.

Lemma resolve_is_None_or_indexed_witness :
  VInt 1234 = VNone \/
  index_path (split_slash "data/getOdometerData/odometerMeters")
             (VDict odometer_fields)
  = Ok (VInt 1234).
Proof.
  refine (resolve_is_None_or_indexed "data/getOdometerData/odometerMeters"
            (VDict odometer_fields) (VInt 1234) _).
  vm_compute; reflexivity.
Defined.

Lemma resolve_exceptions_witness :
  exists field,
    Some "vin/length" = Some field /\
    if contains_slash field then AttributeError "get" = AttributeError "get"
    else AttributeError "get" = TypeError \/
         AttributeError "get" = KeyError (VStr field).
Proof.
  refine (resolve_exceptions (Some "vin/length") car (AttributeError "get") _).
  vm_compute; reflexivity.
Defined.

Lemma get_graph_ql_returns_response_witness :
  get_graph_ql 1 some_params (start fresh_api 0 [Ok (VDict odometer_fields)])
  = (Ok (VDict odometer_fields),
     mkState fresh_api (mkScript 0 [])
             [EvHeaders; EvGet some_params; EvLog DEBUG]).
Proof.
  refine (get_graph_ql_returns_response 0 some_params
            (start fresh_api 0 [Ok (VDict odometer_fields)]) tt
            (mkScript 0 [Ok (VDict odometer_fields)]) (mkScript 0 [])
            odometer_fields _ _ _);
    vm_compute; reflexivity.
Defined.

Lemma get_graph_ql_other_error_passes_witness :
  get_graph_ql 1 some_params (start fresh_api 0 [Ok (VDict other_failure)])
  = (Ok (VDict other_failure),
     mkState fresh_api (mkScript 0 [])
             [EvHeaders; EvGet some_params; EvLog WARNING; EvLog DEBUG]).
Proof.
  refine (get_graph_ql_other_error_passes 0 some_params
            (start fresh_api 0 [Ok (VDict other_failure)]) tt
            (mkScript 0 [Ok (VDict other_failure)]) (mkScript 0 [])
            other_failure {[ "message" := VStr "Internal error" ]} []
            (VStr "Internal error") _ _ _ _ _);
    vm_compute; reflexivity.
Defined.

Lemma get_graph_ql_error_without_message_witness :
  get_graph_ql 1 some_params (start fresh_api 0 [Ok (VDict malformed_failure)])
  = (Raise (KeyError (VStr "message")),
     mkState fresh_api (mkScript 0 []) [EvHeaders; EvGet some_params]).
Proof.
  refine (get_graph_ql_error_without_message 0 some_params
            (start fresh_api 0 [Ok (VDict malformed_failure)]) tt
            (mkScript 0 [Ok (VDict malformed_failure)]) (mkScript 0 [])
            malformed_failure {[ "code" := VInt 500 ]} [] _ _ _ _);
    vm_compute; reflexivity.
Defined.

Lemma get_graph_ql_propagates_witness :
  get_graph_ql 1 some_params (start fresh_api 0 [])
  = (Raise (ExternalError "no response"),
     mkState fresh_api (mkScript 0 []) [EvHeaders; EvGet some_params]).
Proof.
  refine (proj2 (get_graph_ql_propagates 0 some_params
                   (start fresh_api 0 []) (ExternalError "no response") tt
                   (mkScript 0 []) (mkScript 0 [])) _ _);
    vm_compute; reflexivity.
Defined.

Lemma refresh_writes_entry_witness :
  exists result st1 d cache,
    get_odo_data 5
      (start (api_with ∅ (Some (VStr the_vin)) None) 7
             [Ok (VDict odometer_fields)])
    = (Ok result, st1) /\
    result_data result "getOdometerData" = Ok d /\
    cache_data (api_with ∅ (Some (VStr the_vin)) None) = Some cache /\
    (getOdometerData 5
       (start (api_with ∅ (Some (VStr the_vin)) None) 7
              [Ok (VDict odometer_fields)])).2
    = mkState (set_cache_data
                 (<["getOdometerData" := mkEntry d (now (world st1))]> cache)
                 (api_with ∅ (Some (VStr the_vin)) None))
              (world st1) (trace st1).
Proof.
  refine (proj1 (refresh_writes_entry 5
                   (start (api_with ∅ (Some (VStr the_vin)) None) 7
                          [Ok (VDict odometer_fields)])
                   (getOdometerData 5
                      (start (api_with ∅ (Some (VStr the_vin)) None) 7
                             [Ok (VDict odometer_fields)])).2) _).
  vm_compute; reflexivity.
Defined.

Lemma refresh_failure_keeps_object_witness :
  self (getBatteryData 5
          (start (api_with {[ "getBatteryData" := mkEntry battery 1000 ]}
                           (Some (VStr the_vin)) None) 2000 [])).2
  = api_with {[ "getBatteryData" := mkEntry battery 1000 ]}
             (Some (VStr the_vin)) None.
Proof.
  refine (proj2 (refresh_failure_keeps_object 5
                   (start (api_with {[ "getBatteryData" := mkEntry battery 1000 ]}
                                    (Some (VStr the_vin)) None) 2000 [])
                   (getBatteryData 5
                      (start (api_with
                                {[ "getBatteryData" := mkEntry battery 1000 ]}
                                (Some (VStr the_vin)) None) 2000 [])).2
                   (ExternalError "no response")) _).
  vm_compute; reflexivity.
Defined.

Lemma refresh_needs_vin_witness :
  exists e,
    (e = AttributeError "vin" \/ e = TypeError) /\
    getOdometerData 5 (start fresh_api 0 [Ok (VDict odometer_fields)])
    = (Raise e, start fresh_api 0 [Ok (VDict odometer_fields)]) /\
    getBatteryData 5 (start fresh_api 0 [Ok (VDict odometer_fields)])
    = (Raise e, start fresh_api 0 [Ok (VDict odometer_fields)]).
Proof.
  refine (refresh_needs_vin 5
            (start fresh_api 0 [Ok (VDict odometer_fields)]) _).
  intros s; discriminate.
Defined.

Lemma init_selects_first_car_witness :
  vin (self initialized) = Some (VStr the_vin) /\
  id (self initialized) = Some (VStr "YSMYKEAE") /\
  name (self initialized) = Some (VStr "Polestar 0001").
Proof.
  unfold initialized.
  rewrite (init_selects_first_car 5
             (start (api_with ∅ None None) 0 [Ok (cars_response (VList [car]))])
             (get_vehicle_data 5
                (@mkState scripted (api_with ∅ None None)
                   (mkScript 0 [Ok (cars_response (VList [car]))])
                   [EvGetToken])).2
             (mkScript 0 [Ok (cars_response (VList [car]))])
             (cars_response (VList [car]))
             {[ "vin" := VStr the_vin ]} [] the_vin ∅);
    vm_compute; repeat split.
Defined.

Lemma init_car_without_vin_witness :
  (init 5 (start (api_with ∅ None None) 9
                 [Ok (cars_response (VList [anonymous_car; car]))])).1
  = Raise (KeyError (VStr "vin")) /\
  self (init 5 (start (api_with ∅ None None) 9
                      [Ok (cars_response (VList [anonymous_car; car]))])).2
  = api_with {[ "getConsumerCarsV2" := mkEntry anonymous_car 9 ]} None None.
Proof.
  rewrite (init_car_without_vin 5
             (start (api_with ∅ None None) 9
                    [Ok (cars_response (VList [anonymous_car; car]))])
             (get_vehicle_data 5
                (@mkState scripted (api_with ∅ None None)
                   (mkScript 9
                      [Ok (cars_response (VList [anonymous_car; car]))])
                   [EvGetToken])).2
             (mkScript 9 [Ok (cars_response (VList [anonymous_car; car]))])
             (cars_response (VList [anonymous_car; car]))
             {[ "modelYear" := VStr "2024" ]} [car] ∅);
    vm_compute; repeat split.
Defined.

Lemma init_needs_cache_witness :
  exists e,
    (init 5 (start fresh_api 0 [Ok (cars_response (VList [car]))])).1
    = Raise e.
Proof.
  refine (init_needs_cache 5
            (start fresh_api 0 [Ok (cars_response (VList [car]))]) _).
  reflexivity.
Defined.

